(* ========================================================================= *)
(*  Fin-Traq backend: baseline, leakage and consent-gated allocation.         *)
(*                                                                           *)
(*  Shallow embedding of                                                     *)
(*    services/orchestration_service.py  (suggestion plan, consent commit)   *)
(*    services/leakage_service.py        (historical median, final DMB,      *)
(*                                        leak buckets, guardrail clamp)      *)
(*    services/benchmarking_service.py   (cohort fallback)                   *)
(*    ml/scaling_logic.py                (dynamic baseline per category)      *)
(*    ml/efs_calculator.py, services/financial_profile_service.py  (EFS)     *)
(*                                                                           *)
(*  Representation choices.                                                  *)
(*  - Money columns are DECIMAL(10,2): an amount is a Z counting cents, so   *)
(*    `x.quantize(Decimal("0.01"))` of an amount is the identity.            *)
(*  - Unitless factors (EFS, city multiplier, efficiency factor) are Q.      *)
(*    Decimal arithmetic is modelled exactly; the module-level               *)
(*    `getcontext().prec = 4` of ml/*.py is not modelled.                    *)
(*  - A Python dict is an association list (insertion ordered), looked up    *)
(*    with `dict_get`.                                                        *)
(*  - Database reads are inputs (`option` when `.first()` may give None);    *)
(*    database writes are returned as the updated rows / appended entries.   *)
(*  - Python exceptions are the constructors of `py_error`.                  *)
(* ========================================================================= *)

From Stdlib Require Import ZArith QArith Qround String List Bool Lia Lqa.
Import ListNotations.
Open Scope string_scope.
Open Scope list_scope.
Open Scope Z_scope.

(* ------------------------------------------------------------------------- *)
(** * Common infrastructure *)

(** Exceptions raised by the modelled code. *)
Inductive py_error : Type :=
| NoResultFound (msg : string)
| HTTPException (status_code : Z) (detail : string)
| Exception (msg : string).

(** A computation that returns a value or raises. *)
Inductive result (A : Type) : Type :=
| Ok (a : A)
| Err (e : py_error).
Arguments Ok {A} a.
Arguments Err {A} e.

(** [x or Decimal("0.00")] for a nullable amount. *)
Definition or_zero (o : option Z) : Z :=
  match o with Some v => v | None => 0 end.

(** [d.get(k, default)] on a dict modelled as an association list. *)
Fixpoint dict_get {V : Type} (d : list (string * V)) (k : string) (dflt : V) : V :=
  match d with
  | [] => dflt
  | (k', v) :: d' => if String.eqb k k' then v else dict_get d' k dflt
  end.

(** [k in d]. *)
Definition dict_mem {V : Type} (d : list (string * V)) (k : string) : bool :=
  existsb (fun kv => String.eqb k (fst kv)) d.

(** [d[k] = v]: replaces the value in place, or appends a new key. *)
Fixpoint dict_set {V : Type} (d : list (string * V)) (k : string) (v : V)
  : list (string * V) :=
  match d with
  | [] => [(k, v)]
  | (k', v') :: d' =>
      if String.eqb k k' then (k', v) :: d' else (k', v') :: dict_set d' k v
  end.

(* ------------------------------------------------------------------------- *)
(** * Data model (db/base.py, db/models.py) *)

(** The columns of [SalaryAllocationProfile] that the services read or write.
    [total_autotransferred] is [None] on an object built in Python and not
    yet flushed (the column default only applies on insert). *)
Record SalaryAllocationProfile : Type := mkSalaryProfile {
  net_monthly_income : Z;
  fixed_commitment_total : Z;
  variable_spend_total : Z;
  projected_reclaimable_salary : Z;
  total_autotransferred : option Z;
  tax_headroom_remaining : Z
}.

(** [SalaryAllocationProfile(projected_reclaimable_salary=Decimal("0.00"))]:
    the default row of [_fetch_available_reclaimable_salary]. *)
Definition default_salary_profile : SalaryAllocationProfile :=
  mkSalaryProfile 0 0 0 0 None 0.

(** [SmartTransferRule] (db/models.py). *)
Record SmartTransferRule : Type := mkRule {
  rule_id : Z;
  rule_name : string;
  rule_type : string;
  target_amount_monthly : Z;
  destination_account_name : string
}.



(* ------------------------------------------------------------------------- *)
(** * OrchestrationService.generate_consent_suggestion_plan *)

Module Suggestion.









End Suggestion.

(* ------------------------------------------------------------------------- *)
(** * OrchestrationService.record_consent_and_update_balance *)

Module Consent.

(** One item of the consented [transfer_plan] (a dict from the API).
    [transfer_amount] is [None] when the key is absent ([.get] gives 0). *)
Record TransferItem : Type := mkItem {
  item_transfer_amount : option Z;
  item_rule_id : option Z;
  item_rule_name : string;
  item_type : string
}.

(** The [Transaction] rows appended to the session (the audit entries). *)
Record LedgerEntry : Type := mkEntry {
  entry_amount : Z;
  entry_rule_id : option Z;
  entry_category : string
}.

(** What the call did: the early "No transfers to execute." return, or the
    committed update with the new period row, the appended entries, the
    returned [total_transferred] and [transfers_executed]. *)
Inductive ConsentOutcome : Type :=
| NoTransfers
| Executed (new_profile : SalaryAllocationProfile) (ledger : list LedgerEntry)
           (total_transferred : Z) (executed : list TransferItem).

(** The loop over the plan: (total_transferred, executed_transfers, ledger). *)
Fixpoint execute_items (plan : list TransferItem)
    (acc : Z * list TransferItem * list LedgerEntry)
    : Z * list TransferItem * list LedgerEntry :=
  match plan with
  | [] => acc
  | item :: rest =>
      let '(total, executed, ledger) := acc in
      let transfer_amount := or_zero (item_transfer_amount item) in
      if transfer_amount <=? 0 then execute_items rest acc
      else
        (* transfer_successful = True *)
        execute_items rest
          (total + transfer_amount, executed ++ [item],
           ledger ++ [mkEntry transfer_amount (item_rule_id item) (item_type item)])
  end.

(** [record_consent_and_update_balance]; [salary_row] is the period row
    found by the query (None when absent). *)
Definition record_consent_and_update_balance
    (transfer_plan : list TransferItem) (salary_row : option SalaryAllocationProfile)
    : result ConsentOutcome :=
  match transfer_plan with
  | [] => Ok NoTransfers
  | _ =>
      match salary_row with
      | None => Err (NoResultFound
                  "Cannot execute Autopilot: Salary Allocation Profile not found for the period.")
      | Some sp =>
          let '(total_transferred, executed, ledger) :=
            execute_items transfer_plan (0, [], []) in
          let sp' := {| net_monthly_income := net_monthly_income sp;
                        fixed_commitment_total := fixed_commitment_total sp;
                        variable_spend_total := variable_spend_total sp;
                        projected_reclaimable_salary :=
                          projected_reclaimable_salary sp - total_transferred;
                        total_autotransferred :=
                          Some (or_zero (total_autotransferred sp) + total_transferred);
                        tax_headroom_remaining := tax_headroom_remaining sp |} in
          Ok (Executed sp' ledger total_transferred executed)
      end
  end.


End Consent.

(* ------------------------------------------------------------------------- *)
(** * Rounding and sorting helpers *)

(** [sorted(xs)] for a total order given by [leb]: a stable insertion sort. *)
Fixpoint insert_sorted {A : Type} (leb : A -> A -> bool) (x : A) (l : list A) : list A :=
  match l with
  | [] => [x]
  | y :: l' => if leb x y then x :: y :: l' else y :: insert_sorted leb x l'
  end.

Fixpoint sort {A : Type} (leb : A -> A -> bool) (l : list A) : list A :=
  match l with
  | [] => []
  | x :: l' => insert_sorted leb x (sort leb l')
  end.

(** Rounding of a rational to an integer, ties to the even neighbour
    (the default rounding of Python's decimal context, ROUND_HALF_EVEN). *)
Definition round_half_even (q : Q) : Z :=
  let f := Qfloor q in
  match Qcompare (q - inject_Z f) (1 # 2) with
  | Lt => f
  | Gt => f + 1
  | Eq => if Z.even f then f else f + 1
  end.

(** Rounding ties away from zero (ROUND_HALF_UP). *)
Definition round_half_up (q : Q) : Z :=
  if Qle_bool 0 q then Qfloor (q + (1 # 2)) else - Qfloor (- q + (1 # 2)).

(** [Decimal(cents) / Decimal("2.00")] quantized to cents, ROUND_HALF_EVEN. *)
Definition half_cents (s : Z) : Z := round_half_even (s # 2).

(* ------------------------------------------------------------------------- *)
(** * ml/scaling_logic.py: calculate_dynamic_baseline *)

Module Scaling.

(** [BASE_NEEDS_INDEX], in cents. *)
Definition BASE_NEEDS_INDEX : list (string * Z) :=
  [("Variable_Essential_Food", 500000);
   ("Variable_Essential_Transport", 250000);
   ("Variable_Essential_Health", 150000);
   ("Scaled_Discretionary_Routine", 100000)].

(** [CITY_COST_MULTIPLIERS]. *)
Definition CITY_COST_MULTIPLIERS : list (string * Q) :=
  [("Tier 1", 125 # 100); ("Tier 2", 110 # 100); ("Tier 3", 100 # 100); ("Tier 4", 90 # 100)].

(** [DEFAULT_EFFICIENCY_FACTORS], by income slab. *)
Definition DEFAULT_EFFICIENCY_FACTORS : list (string * Q) :=
  [("High", 90 # 100); ("Medium", 100 # 100); ("Low", 105 # 100)].

Definition LEAK_SAVINGS_MARGIN_PERCENTAGE : Q := 15 # 100.

(** The efficiency factor chosen in step 1. *)
Definition efficiency_factor (income_slab : string) (benchmark_efficiency_factor : option Q) : Q :=
  match benchmark_efficiency_factor with
  | Some f => f
  | None => dict_get DEFAULT_EFFICIENCY_FACTORS income_slab (1 # 1)
  end.

(** [category_dmb], in cents: [(base_cost * EFS * city * eff).quantize(0.01)]. *)
Definition category_dmb (base_cost : Z) (efs city eff : Q) : Z :=
  round_half_even (inject_Z base_cost * efs * city * eff)%Q.

(** [category_threshold]: [(category_dmb * (1 - margin)).quantize(0.01)]. *)
Definition category_threshold (dmb : Z) : Z :=
  round_half_even (inject_Z dmb * (1 - LEAK_SAVINGS_MARGIN_PERCENTAGE))%Q.

(** The loop of step 3: per category thresholds, and the sum of the DMBs. *)
Fixpoint category_loop (base_needs : list (string * Z)) (efs city eff : Q)
    (acc : list (string * Z)) (total_dmb : Z) : list (string * Z) * Z :=
  match base_needs with
  | [] => (acc, total_dmb)
  | (category, base_cost) :: rest =>
      let dmb := category_dmb base_cost efs city eff in
      category_loop rest efs city eff
        (dict_set acc category (category_threshold dmb)) (total_dmb + dmb)
  end.

Definition sum_values (d : list (string * Z)) : Z := fold_right (fun kv s => snd kv + s) 0 d.

Definition calculate_dynamic_baseline_with (net_income : Z) (equivalent_family_size : Q)
    (city_tier income_slab : string) (benchmark_efficiency_factor : option Q)
    (base_needs : list (string * Z)) : list (string * Z) :=
  let eff := efficiency_factor income_slab benchmark_efficiency_factor in
  let city_multiplier := dict_get CITY_COST_MULTIPLIERS city_tier (1 # 1) in
  let '(dynamic_baselines, total_minimal_need_dmb) :=
    category_loop base_needs equivalent_family_size city_multiplier eff [] 0 in
  let final_leakage_threshold := sum_values dynamic_baselines in
  let d1 := dict_set dynamic_baselines "Total_Leakage_Threshold" final_leakage_threshold in
  let d2 := dict_set d1 "Total_Minimal_Need_DMB" total_minimal_need_dmb in
  dict_set d2 "Potential_Recoverable_Fund" (total_minimal_need_dmb - final_leakage_threshold).

(** With the default [base_needs = BASE_NEEDS_INDEX]. *)
Definition calculate_dynamic_baseline (net_income : Z) (equivalent_family_size : Q)
    (city_tier income_slab : string) (benchmark_efficiency_factor : option Q)
    : list (string * Z) :=
  calculate_dynamic_baseline_with net_income equivalent_family_size city_tier income_slab
    benchmark_efficiency_factor BASE_NEEDS_INDEX.


End Scaling.

(* ------------------------------------------------------------------------- *)
(** * services/benchmarking_service.py: calculate_benchmark_factor *)

Module Benchmark.

Definition EFS_TOLERANCE : Q := 10 # 100.
Definition FIXED_EXPENSE_TOLERANCE : Q := 5 # 100.
Definition MIN_COHORT_SIZE : nat := 5.
Definition BEST_USER_PERCENTILE : Q := 20 # 100.
Definition DEFAULT_FALLBACK_FACTOR : Q := 85 # 100.

(** A candidate row of the cohort query: a [SalaryAllocationProfile] joined
    with its [User] and [FinancialProfile]. Amounts in cents. *)
Record CohortRow : Type := mkCohortRow {
  row_user_id : Z;
  row_net_monthly_income : Z;
  row_fixed_commitment_total : Z;
  row_variable_spend_total : option Z;
  row_city_tier : string;
  row_e_family_size : Q
}.

(** The WHERE clause of [cohort_stmt]. *)
Definition cohort_filter (self_user_id : Z) (current_efs : Q) (current_fixed_total : Z)
    (city_tier : string) (r : CohortRow) : bool :=
  let efs_min := (current_efs * (1 - EFS_TOLERANCE))%Q in
  let efs_max := (current_efs * (1 + EFS_TOLERANCE))%Q in
  let fixed_min := (inject_Z current_fixed_total * (1 - FIXED_EXPENSE_TOLERANCE))%Q in
  let fixed_max := (inject_Z current_fixed_total * (1 + FIXED_EXPENSE_TOLERANCE))%Q in
  negb (row_user_id r =? self_user_id)
  && (row_fixed_commitment_total r <? row_net_monthly_income r)
  && String.eqb (row_city_tier r) city_tier
  && Qle_bool efs_min (row_e_family_size r)
  && Qle_bool (row_e_family_size r) efs_max
  && Qle_bool fixed_min (inject_Z (row_fixed_commitment_total r))
  && Qle_bool (inject_Z (row_fixed_commitment_total r)) fixed_max.

Definition cohort_query (rows : list CohortRow) (self_user_id : Z) (current_efs : Q)
    (current_fixed_total : Z) (city_tier : string) : list CohortRow :=
  filter (cohort_filter self_user_id current_efs current_fixed_total city_tier) rows.

(** Step 4: the ratio of one cohort member, when its pool is positive. *)
Definition efficiency_ratio (profile : CohortRow) : option Q :=
  let variable_income_pool :=
    row_net_monthly_income profile - row_fixed_commitment_total profile in
  let variable_spend : Q :=
    match row_variable_spend_total profile with
    | None => (inject_Z variable_income_pool * (40 # 100))%Q
    | Some v => inject_Z v
    end in
  if 0 <? variable_income_pool
  then Some (variable_spend / inject_Z variable_income_pool)%Q
  else None.

Fixpoint efficiency_ratios (cohort : list CohortRow) : list Q :=
  match cohort with
  | [] => []
  | p :: rest =>
      match efficiency_ratio p with
      | Some r => r :: efficiency_ratios rest
      | None => efficiency_ratios rest
      end
  end.

Definition Qsum (l : list Q) : Q := fold_right Qplus 0%Q l.

(** [x.quantize(Decimal("0.01"), rounding=ROUND_HALF_UP)] of a factor. *)
Definition quantize_factor (q : Q) : Q := (inject_Z (round_half_up (q * 100)) / 100)%Q.

(** Steps 3-6 on the query result [cohort_results]. *)
Definition benchmark_of_cohort (cohort_results : list CohortRow) : Q :=
  if (length cohort_results <? MIN_COHORT_SIZE)%nat then DEFAULT_FALLBACK_FACTOR
  else
    match efficiency_ratios cohort_results with
    | [] => DEFAULT_FALLBACK_FACTOR
    | ratios =>
        let sorted_ratios := sort Qle_bool ratios in
        let best_user_count :=
          Nat.max 1 (Z.to_nat (Qfloor (inject_Z (Z.of_nat (length sorted_ratios))
                                        * BEST_USER_PERCENTILE))) in
        let best_user_ratios := firstn best_user_count sorted_ratios in
        quantize_factor (Qsum best_user_ratios / inject_Z (Z.of_nat (length best_user_ratios)))
    end.

(** [calculate_benchmark_factor]: the query over the candidate rows, then
    steps 3-6. *)
Definition calculate_benchmark_factor (rows : list CohortRow) (self_user_id : Z)
    (current_efs : Q) (current_fixed_total : Z) (city_tier : string) (net_income : Z) : Q :=
  benchmark_of_cohort (cohort_query rows self_user_id current_efs current_fixed_total city_tier).

End Benchmark.

(* ------------------------------------------------------------------------- *)
(** * Equivalent family size *)

Module EFS.

(** Household composition (the [profile_data] dict / the [User] columns). *)
Record Household : Type := mkHousehold {
  num_adults : Z;
  num_dependents_under_6 : Z;
  num_dependents_6_to_17 : Z;
  num_dependents_over_18 : Z
}.

(** ml/efs_calculator.py [calculate_equivalent_family_size], in hundredths
    (every term has two decimals, so the final quantize is exact). *)
Definition calculate_equivalent_family_size (h : Household) : Z :=
  let efs := 100 in
  let efs := if 1 <? num_adults h then efs + (num_adults h - 1) * 75 else efs in
  let efs := efs + num_dependents_over_18 h * 50 in
  let efs := efs + num_dependents_6_to_17 h * 33 in
  efs + num_dependents_under_6 h * 25.

(** services/financial_profile_service.py constants, in hundredths. *)
Definition ADULT_WEIGHT : Z := 100.
Definition SECOND_ADULT_WEIGHT : Z := 50.
Definition DEPENDENT_6_TO_17_WEIGHT : Z := 30.
Definition DEPENDENT_UNDER_6_WEIGHT : Z := 20.
Definition DEPENDENT_OVER_18_WEIGHT : Z := 50.

(** [FinancialProfileService._calculate_equivalent_family_size], in hundredths. *)
Definition fps_calculate_equivalent_family_size (h : Household) : Z :=
  let efs := ADULT_WEIGHT in
  let efs := if 1 <? num_adults h then efs + (num_adults h - 1) * SECOND_ADULT_WEIGHT else efs in
  let efs := efs + num_dependents_under_6 h * DEPENDENT_UNDER_6_WEIGHT in
  let efs := efs + num_dependents_6_to_17 h * DEPENDENT_6_TO_17_WEIGHT in
  efs + num_dependents_over_18 h * DEPENDENT_OVER_18_WEIGHT.

(** One more dependent in a band. *)
Inductive band : Type := Under6 | From6To17 | Over18.

Definition add_dependent (b : band) (h : Household) : Household :=
  match b with
  | Under6 => mkHousehold (num_adults h) (num_dependents_under_6 h + 1)
                (num_dependents_6_to_17 h) (num_dependents_over_18 h)
  | From6To17 => mkHousehold (num_adults h) (num_dependents_under_6 h)
                (num_dependents_6_to_17 h + 1) (num_dependents_over_18 h)
  | Over18 => mkHousehold (num_adults h) (num_dependents_under_6 h)
                (num_dependents_6_to_17 h) (num_dependents_over_18 h + 1)
  end.

End EFS.

(* ------------------------------------------------------------------------- *)
(** * services/leakage_service.py *)

Module Leakage.

Definition GLOBAL_MINIMAL_BASELINE_FLOOR : Z := 1500000.
Definition ANNUAL_MAX_TAX_SAVING_LIMIT : Z := 15000000.
Definition REPORTING_YEAR_START_MONTH : Z := 4.

(** The three summary keys that are not spending categories. *)
Definition is_total_key (category : string) : bool :=
  existsb (String.eqb category)
    ["Total_Leakage_Threshold"; "Total_Minimal_Need_DMB"; "Potential_Recoverable_Fund"].

Definition pd_categories : list string :=
  ["Pure_Discretionary_DiningOut"; "Pure_Discretionary_Gadget"].

(** ** _calculate_user_historical_spend *)

(** A row of the history query (variable debits of the look-back window):
    its category, the (year, month) of [transaction_date.replace(day=1)],
    and its amount in cents. *)
Record HistTx : Type := mkHistTx {
  tx_category : string;
  tx_month : Z * Z;
  tx_amount : Z
}.

Definition month_eqb (a b : Z * Z) : bool := (fst a =? fst b) && (snd a =? snd b).

(** [monthly[month_start] = monthly.get(month_start, 0) + amount]. *)
Fixpoint month_add (monthly : list ((Z * Z) * Z)) (k : Z * Z) (amount : Z)
  : list ((Z * Z) * Z) :=
  match monthly with
  | [] => [(k, 0 + amount)]
  | (k', v) :: rest =>
      if month_eqb k k' then (k', v + amount) :: rest else (k', v) :: month_add rest k amount
  end.

(** The first loop: [monthly_category_spends]. *)
Definition group_tx (d : list (string * list ((Z * Z) * Z))) (tx : HistTx)
  : list (string * list ((Z * Z) * Z)) :=
  let c := tx_category tx in
  let d := if dict_mem d c then d else dict_set d c [] in
  dict_set d c (month_add (dict_get d c []) (tx_month tx) (tx_amount tx)).

Definition monthly_category_spends (txs : list HistTx) : list (string * list ((Z * Z) * Z)) :=
  fold_left group_tx txs [].

(** The median of the monthly totals, quantized to cents. *)
Definition median_of_months (monthly_data : list ((Z * Z) * Z)) : Z :=
  let monthly_totals := sort Z.leb (map snd monthly_data) in
  let n := length monthly_totals in
  if Nat.odd n then nth (n / 2) monthly_totals 0
  else half_cents (nth (n / 2 - 1) monthly_totals 0 + nth (n / 2) monthly_totals 0).

(** The second loop: [historical_median_spends]. *)
Fixpoint medians_loop (groups : list (string * list ((Z * Z) * Z))) (acc : list (string * Z))
  : list (string * Z) :=
  match groups with
  | [] => acc
  | (category, monthly_data) :: rest =>
      match monthly_data with
      | [] => medians_loop rest acc
      | _ :: _ => medians_loop rest (dict_set acc category (median_of_months monthly_data))
      end
  end.

Definition calculate_user_historical_spend (txs : list HistTx) : list (string * Z) :=
  medians_loop (monthly_category_spends txs) [].

(** ** calculate_final_dmb_with_history *)

Fixpoint final_dmb_loop (dynamic_baselines : list (string * Z))
    (historical_median_spends : list (string * Z)) (acc : list (string * Z))
  : list (string * Z) :=
  match dynamic_baselines with
  | [] => acc
  | (category, efs_threshold) :: rest =>
      if is_total_key category then
        final_dmb_loop rest historical_median_spends (dict_set acc category efs_threshold)
      else
        let user_median := dict_get historical_median_spends category 0 in
        final_dmb_loop rest historical_median_spends
          (dict_set acc category (Z.max efs_threshold user_median))
  end.

Definition calculate_final_dmb_with_history (txs : list HistTx)
    (dynamic_baselines : list (string * Z)) : list (string * Z) * list (string * Z) :=
  let historical_median_spends := calculate_user_historical_spend txs in
  (final_dmb_loop dynamic_baselines historical_median_spends [], historical_median_spends).

(** ** _calculate_tax_headroom_leak *)

(** [current_month] is [date.today().month]; [ytd_sum] is the [scalar()] of
    the TaxCommitment query (None when no row matches). *)
Definition calculate_tax_headroom_leak (current_month : Z) (ytd_sum : option Z)
    (fixed_commitment_total : Z) : Z :=
  let current_month_index := (current_month - REPORTING_YEAR_START_MONTH) mod 12 in
  let months_passed := current_month_index + 1 in
  let ytd := or_zero ytd_sum in
  let ytd := if ytd =? 0 then fixed_commitment_total * months_passed else ytd in
  let tax_headroom := ANNUAL_MAX_TAX_SAVING_LIMIT - ytd in
  Z.max 0 tax_headroom.

(** ** _get_current_month_spends *)

(** [rows] are the (category, total_spend) rows of the grouped MTD query. *)
Definition get_current_month_spends (rows : list (string * Z)) : list (string * Z) :=
  let mtd := fold_left (fun d r => dict_set d (fst r) (snd r)) rows [] in
  let mtd := dict_set mtd "Pure_Discretionary_DiningOut"
               (dict_get mtd "Pure_Discretionary_DiningOut" 0) in
  dict_set mtd "Pure_Discretionary_Gadget" (dict_get mtd "Pure_Discretionary_Gadget" 0).

(** ** calculate_leakage *)

(** A leakage bucket (the display-only percentage string is omitted). *)
Record LeakageBucket : Type := mkBucket {
  bucket_category : string;
  baseline_threshold : Z;
  spend : Z;
  leak_source : string;
  leak_amount : Z
}.

Definition TAX_BUCKET : string := "Tax Optimization Headroom (Annual)".

(** Step 3: the scaled categories; state (variable_leakage, buckets). *)
Fixpoint scaled_loop (final_dmb : list (string * Z)) (current_spends : list (string * Z))
    (acc : Z * list LeakageBucket) : Z * list LeakageBucket :=
  match final_dmb with
  | [] => acc
  | (category, dmb_threshold) :: rest =>
      if is_total_key category then scaled_loop rest current_spends acc
      else
        let s := dict_get current_spends category 0 in
        let leak := Z.max 0 (s - dmb_threshold) in
        let '(variable_leakage, buckets) := acc in
        if 0 <? s then
          let variable_leakage := if 0 <? leak then variable_leakage + leak else variable_leakage in
          let src := if 0 <? leak then "Above Dynamic Minimal Baseline"
                     else "Within Baseline (Achieving Flow)" in
          scaled_loop rest current_spends
            (variable_leakage, buckets ++ [mkBucket category dmb_threshold s src leak])
        else scaled_loop rest current_spends acc
  end.

(** Step 4: the pure discretionary categories. *)
Fixpoint pd_loop (cats : list string) (current_spends : list (string * Z))
    (acc : Z * list LeakageBucket) : Z * list LeakageBucket :=
  match cats with
  | [] => acc
  | category :: rest =>
      let s := dict_get current_spends category 0 in
      let '(variable_leakage, buckets) := acc in
      if 0 <? s then
        pd_loop rest current_spends
          (variable_leakage + s,
           buckets ++ [mkBucket category 0 s "100% Discretionary Spend (Goal Opportunity)" s])
      else pd_loop rest current_spends acc
  end.

(** The returned dict. *)
Record LeakageOut : Type := mkLeakageOut {
  total_leakage_amount : Z;
  out_projected_reclaimable_salary : Z;
  out_tax_headroom_remaining : Z;
  leakage_buckets : list LeakageBucket
}.

(** The user columns read by the service. *)
Record LeakUser : Type := mkLeakUser {
  user_id : Z;
  monthly_salary : Z;
  city_tier : string;
  income_slab : string
}.

(** The [FinancialProfile] column read by the service (None: NULL). *)
Record FinancialProfileRow : Type := mkFinancialProfileRow {
  e_family_size : option Q
}.

(** Everything [calculate_leakage] reads: the rows of its queries and the
    month of [date.today()]. *)
Record LeakageDB : Type := mkLeakageDB {
  db_user : option LeakUser;
  db_salary_row : option SalaryAllocationProfile;
  db_financial_profile : option FinancialProfileRow;
  db_cohort_rows : list Benchmark.CohortRow;
  db_history : list HistTx;
  db_mtd_rows : list (string * Z);
  db_ytd_tax_commitments : option Z;
  db_today_month : Z
}.

(** What [_fetch_profile_data_and_baselines] returns. *)
Record ProfileData : Type := mkProfileData {
  pd_net_monthly_income : Z;
  pd_dynamic_baselines : list (string * Z);
  pd_efs : Q;
  pd_salary_profile : SalaryAllocationProfile
}.

Definition EFS_NOT_FOUND : string :=
  "Financial Profile or Equivalent Family Size not found. Run OrchestrationService first to calculate EFS.".

(** [not profile or not profile.e_family_size]: a missing row, NULL, or 0. *)
Definition efs_missing (profile : option FinancialProfileRow) : bool :=
  match profile with
  | None => true
  | Some p => match e_family_size p with None => true | Some e => Qeq_bool e 0 end
  end.

(** [_fetch_profile_data_and_baselines]. The source calls the benchmarking
    service under the name [calculate_efficiency_factor]; the model calls
    [calculate_benchmark_factor] with the same arguments. *)
Definition fetch_profile_data_and_baselines (db : LeakageDB) : result ProfileData :=
  match db_user db with
  | None => Err (NoResultFound "User ID not found.")
  | Some u =>
      let salary_profile :=
        match db_salary_row db with
        | Some sp => sp
        | None => mkSalaryProfile (monthly_salary u) 0 0 0 (Some 0) 0
        end in
      match db_financial_profile db with
      | Some {| e_family_size := Some efs |} =>
          if Qeq_bool efs 0 then Err (NoResultFound EFS_NOT_FOUND)
          else
            let benchmark_factor :=
              Benchmark.calculate_benchmark_factor (db_cohort_rows db) (user_id u) efs
                (fixed_commitment_total salary_profile) (city_tier u)
                (net_monthly_income salary_profile) in
            let baseline_results :=
              Scaling.calculate_dynamic_baseline (net_monthly_income salary_profile) efs
                (city_tier u) (income_slab u) (Some benchmark_factor) in
            Ok (mkProfileData (net_monthly_income salary_profile) baseline_results efs
                  salary_profile)
      | _ => Err (NoResultFound EFS_NOT_FOUND)
      end
  end.

Definition error_text (e : py_error) : string :=
  match e with
  | NoResultFound m => m
  | HTTPException _ m => m
  | Exception m => m
  end.

Definition set_tax_headroom (sp : SalaryAllocationProfile) (v : Z) : SalaryAllocationProfile :=
  {| net_monthly_income := net_monthly_income sp;
     fixed_commitment_total := fixed_commitment_total sp;
     variable_spend_total := variable_spend_total sp;
     projected_reclaimable_salary := projected_reclaimable_salary sp;
     total_autotransferred := total_autotransferred sp;
     tax_headroom_remaining := v |}.

Definition set_leakage_result (sp : SalaryAllocationProfile) (reclaimable variable : Z)
  : SalaryAllocationProfile :=
  {| net_monthly_income := net_monthly_income sp;
     fixed_commitment_total := fixed_commitment_total sp;
     variable_spend_total := variable;
     projected_reclaimable_salary := reclaimable;
     total_autotransferred := total_autotransferred sp;
     tax_headroom_remaining := tax_headroom_remaining sp |}.

(** [calculate_leakage]: the returned dict and the period row it commits. *)
Definition calculate_leakage (db : LeakageDB) : result (LeakageOut * SalaryAllocationProfile) :=
  match fetch_profile_data_and_baselines db with
  | Err e => Err (Exception (String.append "Failed to initialize Leakage Service: " (error_text e)))
  | Ok profile_data =>
      let sp0 := pd_salary_profile profile_data in
      (* 1. tax leak, written onto the row *)
      let tax_leak_amount :=
        calculate_tax_headroom_leak (db_today_month db) (db_ytd_tax_commitments db)
          (fixed_commitment_total sp0) in
      let salary_profile := set_tax_headroom sp0 tax_leak_amount in
      (* 2. reconciled baselines and current spends *)
      let '(final_dmb, _) :=
        calculate_final_dmb_with_history (db_history db) (pd_dynamic_baselines profile_data) in
      let current_spends := get_current_month_spends (db_mtd_rows db) in
      (* 3. and 4. *)
      let acc := scaled_loop final_dmb current_spends (0, []) in
      let '(variable_leakage, buckets) := pd_loop pd_categories current_spends acc in
      (* 5. and 6. *)
      let total_leakage := variable_leakage + tax_leak_amount in
      let net_income := net_monthly_income salary_profile in
      let fixed_commitments := fixed_commitment_total salary_profile in
      let absolute_floor := fixed_commitments + GLOBAL_MINIMAL_BASELINE_FLOOR in
      let max_possible_leakage := Z.max 0 (net_income - absolute_floor) in
      let projected_reclaimable_salary := Z.min total_leakage max_possible_leakage in
      (* 7. *)
      let buckets :=
        if 0 <? tax_leak_amount then
          buckets ++ [mkBucket TAX_BUCKET ANNUAL_MAX_TAX_SAVING_LIMIT
                        (ANNUAL_MAX_TAX_SAVING_LIMIT - tax_leak_amount)
                        "Unused Tax Capacity (Salary Maximizer)" tax_leak_amount]
        else buckets in
      (* 8. *)
      let salary_profile :=
        set_leakage_result salary_profile projected_reclaimable_salary
          (Scaling.sum_values current_spends) in
      Ok (mkLeakageOut total_leakage projected_reclaimable_salary
            (tax_headroom_remaining salary_profile) buckets, salary_profile)
  end.

End Leakage.

(* ------------------------------------------------------------------------- *)
(** * Concrete inputs used by the examples below *)

Module Samples.







(** The user exists but no financial profile has been computed. *)
Definition no_profile_db : Leakage.LeakageDB :=
  Leakage.mkLeakageDB (Some (Leakage.mkLeakUser 1 6000000 "Tier 1" "High"))
    (Some (mkSalaryProfile 6000000 2000000 0 0 (Some 0) 0))
    None [] [] [] None 5.

(** Three users similar to user 1 (EFS 1.80, fixed 20,000.00, Tier 1). *)
Definition small_cohort : list Benchmark.CohortRow :=
  [Benchmark.mkCohortRow 2 7000000 2000000 (Some 100000) "Tier 1" (18 # 10);
   Benchmark.mkCohortRow 3 5000000 2050000 (Some 2900000) "Tier 1" (17 # 10);
   Benchmark.mkCohortRow 4 9000000 1950000 None "Tier 1" (19 # 10)].

(** Four months of history in two categories. *)
Definition history : list Leakage.HistTx :=
  [Leakage.mkHistTx "Variable_Essential_Food" (2024, 1) 700000;
   Leakage.mkHistTx "Variable_Essential_Food" (2024, 2) 1100000;
   Leakage.mkHistTx "Variable_Essential_Food" (2024, 3) 900000;
   Leakage.mkHistTx "Variable_Essential_Health" (2024, 3) 50000].

End Samples.

(* ------------------------------------------------------------------------- *)
(** * Auxiliary predicates used in the proofs *)

(** Every monthly total of a per-category month list is non-negative. *)
Definition months_nonneg (monthly : list ((Z * Z) * Z)) : Prop :=
  Forall (fun mv => 0 <= snd mv) monthly.


(* ------------------------------------------------------------------------- *)
(** * OrchestrationService: autopilot conversion of a recovered leak *)

Module Autopilot.

(** A [SmartTransferRule] row with the columns the autopilot filters and
    updates: [is_active], [priority] (default 1) and [amount_allocated_mtd]
    (NOT NULL, default 0.00). *)
Record RuleRow : Type := mkRuleRow {
  rr_rule : SmartTransferRule;
  rr_is_active : bool;
  rr_priority : Z;
  rr_amount_allocated_mtd : Z
}.

(** [AUTOPILOT_THRESHOLD = Decimal("200.00")]. *)
Definition AUTOPILOT_THRESHOLD : Z := 20000.

(** [is_active == True] and [amount_allocated_mtd < target_amount_monthly]. *)
Definition eligible (r : RuleRow) : bool :=
  rr_is_active r && (rr_amount_allocated_mtd r <? target_amount_monthly (rr_rule r)).

(** [.filter(p).order_by(priority.desc()).first()] over the user's rule rows:
    the position and the row of the first row satisfying [p] with the highest
    priority (rows of equal priority are taken in the order given). *)
Fixpoint top_rule (p : RuleRow -> bool) (rows : list RuleRow) : option (nat * RuleRow) :=
  match rows with
  | [] => None
  | r :: rest =>
      let t := match top_rule p rest with
               | Some (i, m) => Some (S i, m)
               | None => None
               end in
      if p r then
        match t with
        | None => Some (O, r)
        | Some (i, m) => if rr_priority m <=? rr_priority r then Some (O, r) else Some (i, m)
        end
      else t
  end.

(** Write a row back at its position. *)
Fixpoint replace_nth {A : Type} (l : list A) (i : nat) (x : A) : list A :=
  match l, i with
  | [], _ => []
  | _ :: t, O => x :: t
  | h :: t, S j => h :: replace_nth t j x
  end.

(** [salary_profile.total_autotransferred = v]. *)
Definition with_total_autotransferred (sp : SalaryAllocationProfile) (v : Z)
  : SalaryAllocationProfile :=
  {| net_monthly_income := net_monthly_income sp;
     fixed_commitment_total := fixed_commitment_total sp;
     variable_spend_total := variable_spend_total sp;
     projected_reclaimable_salary := projected_reclaimable_salary sp;
     total_autotransferred := Some v;
     tax_headroom_remaining := tax_headroom_remaining sp |}.

(** What a conversion commits: the amount, the funded rule after the update,
    all rule rows after the update, the period row after the update (None
    when there is no period row: the default object of
    [_fetch_available_reclaimable_salary] is not in the session, so nothing
    of it is stored) and the logged [Transaction]. *)
Record Conversion : Type := mkConversion {
  conversion_amount : Z;
  funded_rule : RuleRow;
  rules_after : list RuleRow;
  row_after : option SalaryAllocationProfile;
  stash_entry : Consent.LedgerEntry
}.

(** [convert_leak_to_goal_if_possible]; [salary_row] is the period row
    (None when absent), [rules] the user's rule rows. [None]: the method
    returns without changing anything. *)
Definition convert_leak_to_goal_if_possible (projected_reclaimable : Z)
    (salary_row : option SalaryAllocationProfile) (rules : list RuleRow) : option Conversion :=
  if projected_reclaimable <? AUTOPILOT_THRESHOLD then None
  else
    let salary_profile :=
      match salary_row with Some p => p | None => default_salary_profile end in
    let available_for_conversion :=
      projected_reclaimable - or_zero (total_autotransferred salary_profile) in
    if available_for_conversion <=? 5000 then None
    else
      match top_rule eligible rules with
      | None => None
      | Some (i, top) =>
          let monthly_gap := target_amount_monthly (rr_rule top) - rr_amount_allocated_mtd top in
          let conversion_amount := Z.min available_for_conversion monthly_gap in
          if 0 <? conversion_amount then
            let top' := {| rr_rule := rr_rule top;
                           rr_is_active := rr_is_active top;
                           rr_priority := rr_priority top;
                           rr_amount_allocated_mtd :=
                             rr_amount_allocated_mtd top + conversion_amount |} in
            let row' :=
              match salary_row with
              | Some p => Some (with_total_autotransferred p
                                  (or_zero (total_autotransferred p) + conversion_amount))
              | None => None
              end in
            Some (mkConversion conversion_amount top' (replace_nth rules i top') row'
                    (Consent.mkEntry conversion_amount (Some (rule_id (rr_rule top)))
                       "Autopilot Stash"))
          else None
      end.


End Autopilot.

(* ------------------------------------------------------------------------- *)
(** * LeakageService.get_leakage_insights *)

Module Insights.




End Insights.

(* ------------------------------------------------------------------------- *)
(** * OrchestrationService.calculate_and_save_financial_profile *)

Module ProfileRecalc.




End ProfileRecalc.

(* ------------------------------------------------------------------------- *)
(** * FinancialProfileService.calculate_and_save_dmb *)

Module DmbService.







End DmbService.

(* ------------------------------------------------------------------------- *)
(** * Auxiliary definitions of the properties *)



(** The [Transaction] appended for one executed item. *)
Definition ledger_entry_of (item : Consent.TransferItem) : Consent.LedgerEntry :=
  Consent.mkEntry (or_zero (Consent.item_transfer_amount item)) (Consent.item_rule_id item)
    (Consent.item_type item).

Definition item_positive (item : Consent.TransferItem) : bool :=
  0 <? or_zero (Consent.item_transfer_amount item).

Definition ledger_total (ledger : list Consent.LedgerEntry) : Z :=
  fold_right (fun e s => Consent.entry_amount e + s) 0 ledger.

Definition unit_interval (q : Q) : Prop := (0 <= q /\ q <= 1)%Q.

(* ------------------------------------------------------------------------- *)
(** * More sample inputs *)

Module ExtraSamples.


(** Three rule rows: an active goal (priority 1, 500.00 to go), an active tax
    rule (priority 3, 200.00 of 300.00 to go) and an inactive goal. *)
Definition emergency_row : Autopilot.RuleRow :=
  Autopilot.mkRuleRow (mkRule 5 "Emergency" "GOAL" 50000 "Emergency Fund") true 1 0.
Definition elss_row : Autopilot.RuleRow :=
  Autopilot.mkRuleRow (mkRule 6 "ELSS" "TAX_SAVING" 30000 "ELSS Fund") true 3 10000.
Definition old_goal_row : Autopilot.RuleRow :=
  Autopilot.mkRuleRow (mkRule 7 "Old Goal" "GOAL" 90000 "Old Goal") false 9 0.
Definition autopilot_rules : list Autopilot.RuleRow := [emergency_row; elss_row; old_goal_row].

(** Five users similar to user 1 (EFS 1.80, fixed 20,000.00, Tier 1); one
    has no variable spend on record. *)
Definition full_cohort : list Benchmark.CohortRow :=
  [Benchmark.mkCohortRow 2 6000000 2000000 (Some 1000000) "Tier 1" (18 # 10);
   Benchmark.mkCohortRow 3 6500000 2050000 (Some 2400000) "Tier 1" (17 # 10);
   Benchmark.mkCohortRow 4 7000000 1950000 None "Tier 1" (19 # 10);
   Benchmark.mkCohortRow 5 5500000 2000000 (Some 3000000) "Tier 1" (18 # 10);
   Benchmark.mkCohortRow 6 8000000 2000000 (Some 1600000) "Tier 1" (18 # 10)].



End ExtraSamples.


(* ========================================================================= *)
(** * Properties *)

(* ------------------------------------------------------------------------- *)
(** ** Consent commit *)











(* ------------------------------------------------------------------------- *)
(** ** Suggestion plan *)






(* ------------------------------------------------------------------------- *)
(** ** Peer benchmark fallback *)

(** C3: when the similarity query yields fewer than [MIN_COHORT_SIZE] = 5
    rows, [calculate_benchmark_factor] returns [DEFAULT_FALLBACK_FACTOR],
    which is 0.85, whatever the rows hold. *)
Theorem benchmark_small_cohort_fallback :
  forall (rows : list Benchmark.CohortRow) (self_user_id : Z) (current_efs : Q)
         (current_fixed_total : Z) (city_tier : string) (net_income : Z),
    (length (Benchmark.cohort_query rows self_user_id current_efs current_fixed_total city_tier)
       < 5)%nat ->
    Benchmark.calculate_benchmark_factor rows self_user_id current_efs current_fixed_total
      city_tier net_income = Benchmark.DEFAULT_FALLBACK_FACTOR /\
    Benchmark.DEFAULT_FALLBACK_FACTOR = 85 # 100.
Proof.
  intros rows uid efs fixed city net Hlt.
  split; [|reflexivity].
  unfold Benchmark.calculate_benchmark_factor, Benchmark.benchmark_of_cohort.
  apply Nat.ltb_lt in Hlt. unfold Benchmark.MIN_COHORT_SIZE. rewrite Hlt. reflexivity.
Qed.

Lemma benchmark_small_cohort_fallback_witness :
  (length (Benchmark.cohort_query Samples.small_cohort 1 (18 # 10) 2000000 "Tier 1") = 3)%nat /\
  Benchmark.calculate_benchmark_factor Samples.small_cohort 1 (18 # 10) 2000000 "Tier 1" 6000000
    = Benchmark.DEFAULT_FALLBACK_FACTOR /\
  Benchmark.DEFAULT_FALLBACK_FACTOR = 85 # 100.
Proof.
  split; [vm_compute; reflexivity|].
  apply benchmark_small_cohort_fallback. apply Nat.ltb_lt. vm_compute. reflexivity.
Defined.

(* ------------------------------------------------------------------------- *)
(** ** Dynamic baseline per category *)



(* ------------------------------------------------------------------------- *)
(** ** Equivalent family size *)

(** C8: one more dependent in any age band never lowers the EFS, for the
    weight table of ml/efs_calculator.py and for the one of
    services/financial_profile_service.py. *)
Theorem efs_monotone_in_dependents :
  forall (h : EFS.Household) (b : EFS.band),
    EFS.calculate_equivalent_family_size h
      <= EFS.calculate_equivalent_family_size (EFS.add_dependent b h) /\
    EFS.fps_calculate_equivalent_family_size h
      <= EFS.fps_calculate_equivalent_family_size (EFS.add_dependent b h).
Proof.
  intros h b.
  unfold EFS.calculate_equivalent_family_size, EFS.fps_calculate_equivalent_family_size,
    EFS.ADULT_WEIGHT, EFS.SECOND_ADULT_WEIGHT, EFS.DEPENDENT_UNDER_6_WEIGHT,
    EFS.DEPENDENT_6_TO_17_WEIGHT, EFS.DEPENDENT_OVER_18_WEIGHT.
  destruct b; simpl; destruct (1 <? EFS.num_adults h); lia.
Qed.

(* ------------------------------------------------------------------------- *)
(** ** Dictionary and list lemmas *)

Lemma dict_set_in :
  forall {V : Type} (d : list (string * V)) k v k' v',
    In (k, v) (dict_set d k' v') -> (k = k' /\ v = v') \/ In (k, v) d.
Proof.
  intros V d; induction d as [|[k0 v0] d IH]; intros k v k' v' H; simpl in H.
  - destruct H as [H|[]]. injection H as -> ->. left; auto.
  - destruct (String.eqb k' k0) eqn:E.
    + apply String.eqb_eq in E. subst k0.
      destruct H as [H|H].
      * injection H as -> ->. left; auto.
      * right; right; exact H.
    + destruct H as [H|H].
      * right; left; exact H.
      * destruct (IH _ _ _ _ H) as [H'|H']; [left; exact H' | right; right; exact H'].
Qed.

Lemma dict_set_forall :
  forall {V : Type} (P : V -> Prop) (d : list (string * V)) k v,
    Forall (fun kv => P (snd kv)) d -> P v -> Forall (fun kv => P (snd kv)) (dict_set d k v).
Proof.
  intros V P d k v Hd Hv.
  apply Forall_forall. intros [k0 v0] Hin.
  destruct (dict_set_in d k0 v0 k v Hin) as [[_ ->]|H]; [exact Hv|].
  rewrite Forall_forall in Hd. exact (Hd _ H).
Qed.

Lemma dict_get_forall :
  forall {V : Type} (P : V -> Prop) (d : list (string * V)) k dflt,
    Forall (fun kv => P (snd kv)) d -> P dflt -> P (dict_get d k dflt).
Proof.
  intros V P d k dflt Hd Hdf.
  induction Hd as [|[k0 v0] d Hx Hd IH]; simpl; [exact Hdf|].
  destruct (String.eqb k k0); [exact Hx | exact IH].
Qed.

Lemma insert_sorted_forall :
  forall {A : Type} (P : A -> Prop) leb x l,
    P x -> Forall P l -> Forall P (insert_sorted leb x l).
Proof.
  intros A P leb x l Hx Hl.
  induction Hl as [|y l Hy Hl IH]; simpl; [constructor; auto|].
  destruct (leb x y); repeat constructor; auto.
Qed.

Lemma sort_forall :
  forall {A : Type} (P : A -> Prop) leb l, Forall P l -> Forall P (sort leb l).
Proof.
  intros A P leb l Hl.
  induction Hl as [|x l Hx Hl IH]; simpl; [constructor|].
  apply insert_sorted_forall; auto.
Qed.

Lemma nth_forall :
  forall {A : Type} (P : A -> Prop) (l : list A) n d,
    Forall P l -> P d -> P (nth n l d).
Proof.
  intros A P l n d Hl Hd. revert n.
  induction Hl as [|x l Hx Hl IH]; intros [|n]; simpl; auto.
Qed.

Lemma half_cents_nonneg : forall s, 0 <= s -> 0 <= half_cents s.
Proof.
  intros s Hs. unfold half_cents, round_half_even.
  assert (Hf : 0 <= Qfloor (s # 2)).
  { change 0 with (Qfloor 0). apply Qfloor_resp_le.
    unfold Qle. simpl. lia. }
  destruct (Qcompare _ _); [destruct (Z.even _)|..]; lia.
Qed.

(* ------------------------------------------------------------------------- *)
(** ** Missing prerequisite *)

(** C9 (counterexample): the user exists but no financial profile has been
    computed: [calculate_leakage] raises a generic [Exception] (the
    [NoResultFound] of the fetch is re-raised as [Exception]). *)
Lemma missing_efs_generic_exception :
  Leakage.calculate_leakage Samples.no_profile_db =
    Err (Exception (String.append "Failed to initialize Leakage Service: "
                      Leakage.EFS_NOT_FOUND)) /\
  (forall m, Leakage.calculate_leakage Samples.no_profile_db <> Err (NoResultFound m)).
Proof.
  split.
  - vm_compute. reflexivity.
  - intros m H. vm_compute in H. discriminate H.
Qed.

(** C9 (amended): when the user row exists and the financial profile is
    missing or its EFS is NULL or zero, [calculate_leakage] raises the
    generic [Exception] "Failed to initialize Leakage Service: Financial
    Profile or Equivalent Family Size not found. ..." before computing or
    committing anything; no default EFS is substituted. *)
Theorem missing_efs_rejected :
  forall (db : Leakage.LeakageDB) (u : Leakage.LeakUser),
    Leakage.db_user db = Some u ->
    Leakage.efs_missing (Leakage.db_financial_profile db) = true ->
    Leakage.calculate_leakage db =
      Err (Exception (String.append "Failed to initialize Leakage Service: "
                        Leakage.EFS_NOT_FOUND)).
Proof.
  intros db u Hu Hm.
  unfold Leakage.calculate_leakage, Leakage.fetch_profile_data_and_baselines.
  rewrite Hu.
  destruct (Leakage.db_financial_profile db) as [[[e|]]|]; simpl in Hm; try reflexivity.
  rewrite Hm. reflexivity.
Qed.

Lemma missing_efs_rejected_witness :
  Leakage.calculate_leakage Samples.no_profile_db =
    Err (Exception (String.append "Failed to initialize Leakage Service: "
                      Leakage.EFS_NOT_FOUND)).
Proof.
  apply (missing_efs_rejected Samples.no_profile_db
           (Leakage.mkLeakUser 1 6000000 "Tier 1" "High")); reflexivity.
Defined.

(* ------------------------------------------------------------------------- *)
(** ** Historical reconciliation *)

Lemma month_add_nonneg :
  forall monthly k a, months_nonneg monthly -> 0 <= a -> months_nonneg (Leakage.month_add monthly k a).
Proof.
  unfold months_nonneg.
  intros monthly k a Hm Ha.
  induction Hm as [|[k0 v0] m Hx Hm IH]; simpl; [constructor; simpl; [lia|constructor]|].
  destruct (Leakage.month_eqb k k0); constructor; simpl in *; auto; lia.
Qed.

Lemma monthly_category_spends_nonneg :
  forall txs d,
    (forall tx, In tx txs -> 0 <= Leakage.tx_amount tx) ->
    Forall (fun kv => months_nonneg (snd kv)) d ->
    Forall (fun kv => months_nonneg (snd kv)) (fold_left Leakage.group_tx txs d).
Proof.
  induction txs as [|tx rest IH]; intros d Htx Hd; simpl; [exact Hd|].
  apply IH; [intros; apply Htx; right; assumption|].
  unfold Leakage.group_tx.
  set (d1 := if dict_mem d (Leakage.tx_category tx) then d
             else dict_set d (Leakage.tx_category tx) []).
  assert (H1 : Forall (fun kv => months_nonneg (snd kv)) d1).
  { subst d1. destruct (dict_mem _ _); [exact Hd|].
    apply (dict_set_forall months_nonneg); [exact Hd | constructor]. }
  apply (dict_set_forall months_nonneg); [exact H1|].
  apply month_add_nonneg; [|apply Htx; left; reflexivity].
  apply (dict_get_forall months_nonneg); [exact H1 | constructor].
Qed.

Lemma median_of_months_nonneg :
  forall monthly, months_nonneg monthly -> 0 <= Leakage.median_of_months monthly.
Proof.
  intros monthly Hm. unfold Leakage.median_of_months.
  assert (Hs : Forall (fun x => 0 <= x) (sort Z.leb (map snd monthly))).
  { apply sort_forall. apply Forall_map. exact Hm. }
  destruct (Nat.odd _).
  - apply (nth_forall (fun x => 0 <= x)); [exact Hs | lia].
  - apply half_cents_nonneg.
    pose proof (nth_forall (fun x => 0 <= x) _ (length (sort Z.leb (map snd monthly)) / 2 - 1) 0 Hs).
    pose proof (nth_forall (fun x => 0 <= x) _ (length (sort Z.leb (map snd monthly)) / 2) 0 Hs).
    simpl in *. lia.
Qed.

Lemma medians_loop_nonneg :
  forall groups acc,
    Forall (fun kv => months_nonneg (snd kv)) groups ->
    Forall (fun kv => 0 <= snd kv) acc ->
    Forall (fun kv => 0 <= snd kv) (Leakage.medians_loop groups acc).
Proof.
  intros groups; induction groups as [|[c md] rest IH]; intros acc Hg Hacc; simpl; [exact Hacc|].
  inversion Hg as [|x l Hx Hr]; subst.
  destruct md as [|m ms]; apply IH; auto.
  apply (dict_set_forall (fun x => 0 <= x)); [exact Hacc|].
  apply median_of_months_nonneg. exact Hx.
Qed.

(** Every historical median is non-negative when the debits are. *)
Lemma historical_median_nonneg :
  forall txs c,
    (forall tx, In tx txs -> 0 <= Leakage.tx_amount tx) ->
    0 <= dict_get (Leakage.calculate_user_historical_spend txs) c 0.
Proof.
  intros txs c Htx.
  apply (dict_get_forall (fun x => 0 <= x)); [|lia].
  apply medians_loop_nonneg; [|constructor].
  apply monthly_category_spends_nonneg; [exact Htx | constructor].
Qed.

Lemma final_dmb_loop_in :
  forall dyn hist acc c v,
    In (c, v) (Leakage.final_dmb_loop dyn hist acc) ->
    In (c, v) acc \/
    exists t, In (c, t) dyn /\
              v = (if Leakage.is_total_key c then t else Z.max t (dict_get hist c 0)).
Proof.
  induction dyn as [|[c0 t0] rest IH]; intros hist acc c v H; simpl in H; [left; exact H|].
  destruct (Leakage.is_total_key c0) eqn:Et;
    (destruct (IH _ _ _ _ H) as [H1|(t & Ht & ->)];
     [ destruct (dict_set_in _ _ _ _ _ H1) as [[-> ->]|H2];
       [ right; exists t0; split; [left; reflexivity|]; rewrite Et; reflexivity
       | left; exact H2 ]
     | right; exists t; split; [right; exact Ht | reflexivity] ]).
Qed.

(** C4: every category value [v] of the final DMB of
    [calculate_final_dmb_with_history] is [max(t, m)], where [t] is the
    category's ML threshold and [m] the historical median of the category (0
    when the category has no history); hence [v >= m], and [v >= 0] when the
    historical debit amounts are non-negative. *)
Theorem final_dmb_is_max_with_history :
  forall (txs : list Leakage.HistTx) (dynamic_baselines : list (string * Z)) (c : string) (v : Z),
    (forall tx, In tx txs -> 0 <= Leakage.tx_amount tx) ->
    In (c, v) (fst (Leakage.calculate_final_dmb_with_history txs dynamic_baselines)) ->
    Leakage.is_total_key c = false ->
    let m := dict_get (snd (Leakage.calculate_final_dmb_with_history txs dynamic_baselines)) c 0 in
    (exists t, In (c, t) dynamic_baselines /\ v = Z.max t m) /\ m <= v /\ 0 <= v.
Proof.
  intros txs dyn c v Htx Hin Hnt m.
  pose proof (historical_median_nonneg txs c Htx) as Hm.
  unfold Leakage.calculate_final_dmb_with_history in Hin, m. simpl in Hin, m.
  destruct (final_dmb_loop_in _ _ _ _ _ Hin) as [[]|(t & Ht & Hv)].
  rewrite Hnt in Hv.
  subst m. split; [exists t; split; assumption|]. lia.
Qed.

Lemma final_dmb_is_max_with_history_witness :
  let dyn := Scaling.calculate_dynamic_baseline 6000000 (18 # 10) "Tier 1" "High" (Some (85 # 100)) in
  let m := dict_get (snd (Leakage.calculate_final_dmb_with_history Samples.history dyn))
             "Variable_Essential_Food" 0 in
  (exists t, In ("Variable_Essential_Food", t) dyn /\ 900000 = Z.max t m) /\
  m <= 900000 /\ 0 <= 900000.
Proof.
  apply final_dmb_is_max_with_history.
  - intros tx Htx. simpl in Htx.
    repeat (destruct Htx as [<-|Htx]; [simpl; lia|]). destruct Htx.
  - vm_compute. repeat (first [left; reflexivity | right]).
  - reflexivity.
Defined.

(* ------------------------------------------------------------------------- *)
(** ** Leak buckets and the guardrail clamp *)







(* ------------------------------------------------------------------------- *)
(** ** Keys and leak amounts of the leakage buckets *)











Lemma top_rule_none_aux :
  forall p rows, Autopilot.top_rule p rows = None -> forall r, In r rows -> p r = false.
Proof.
  intros p rows; induction rows as [|r0 rest IH]; intros H r Hin; [destruct Hin|].
  simpl in H. destruct (Autopilot.top_rule p rest) as [[j m]|] eqn:Et.
  - destruct (p r0); [destruct (_ <=? _)|]; discriminate H.
  - destruct (p r0) eqn:Ep; [discriminate H|].
    destruct Hin as [<-|Hin]; [exact Ep|exact (IH eq_refl r Hin)].
Qed.

Lemma top_rule_some :
  forall p rows i r,
    Autopilot.top_rule p rows = Some (i, r) ->
    nth_error rows i = Some r /\ p r = true /\
    (forall r', In r' rows -> p r' = true -> Autopilot.rr_priority r' <= Autopilot.rr_priority r).
Proof.
  intros p rows; induction rows as [|r0 rest IH]; intros i r H; simpl in H; [discriminate H|].
  destruct (Autopilot.top_rule p rest) as [[j m]|] eqn:Et.
  - destruct (IH _ _ eq_refl) as (Hn & Hp & Hmax).
    destruct (p r0) eqn:Ep.
    + destruct (Autopilot.rr_priority m <=? Autopilot.rr_priority r0) eqn:Ele;
        injection H as <- <-.
      * apply Z.leb_le in Ele. split; [reflexivity|split; [exact Ep|]].
        intros r' [<-|Hin] Hp'; [lia|]. specialize (Hmax r' Hin Hp'). lia.
      * apply Z.leb_gt in Ele. split; [exact Hn|split; [exact Hp|]].
        intros r' [<-|Hin] Hp'; [lia|]. exact (Hmax r' Hin Hp').
    + injection H as <- <-. split; [exact Hn|split; [exact Hp|]].
      intros r' [<-|Hin] Hp'; [congruence|]. exact (Hmax r' Hin Hp').
  - destruct (p r0) eqn:Ep; [|discriminate H].
    injection H as <- <-. split; [reflexivity|split; [exact Ep|]].
    intros r' [<-|Hin] Hp'; [lia|].
    rewrite (top_rule_none_aux p rest Et r' Hin) in Hp'. discriminate Hp'.
Qed.

Lemma top_rule_exists :
  forall p rows r, In r rows -> p r = true -> exists i m, Autopilot.top_rule p rows = Some (i, m).
Proof.
  intros p rows r Hin Hp.
  destruct (Autopilot.top_rule p rows) as [[i m]|] eqn:E; [eauto|].
  rewrite (top_rule_none_aux p rows E r Hin) in Hp. discriminate Hp.
Qed.


(** X2: convert_leak_to_goal_if_possible converts nothing in three cases: the projected
    reclaimable amount is below AUTOPILOT_THRESHOLD; it exceeds the amount already
    auto-transferred by at most 50.00; or no rule is active and below its target. *)
Theorem autopilot_skip_conditions :
  forall (projected : Z) (row : option SalaryAllocationProfile) (rules : list Autopilot.RuleRow),
    let ta := or_zero (match row with Some p => total_autotransferred p
                                      | None => total_autotransferred default_salary_profile end) in
    (projected < Autopilot.AUTOPILOT_THRESHOLD ->
       Autopilot.convert_leak_to_goal_if_possible projected row rules = None) /\
    (projected - ta <= 5000 ->
       Autopilot.convert_leak_to_goal_if_possible projected row rules = None) /\
    ((forall r, In r rules -> Autopilot.eligible r = false) ->
       Autopilot.convert_leak_to_goal_if_possible projected row rules = None).
Proof.
  intros projected row rules ta.
  unfold Autopilot.convert_leak_to_goal_if_possible.
  replace (or_zero (total_autotransferred (match row with Some p => p | None => default_salary_profile end)))
    with ta by (subst ta; destruct row; reflexivity).
  repeat split.
  - intros H. apply Z.ltb_lt in H. rewrite H. reflexivity.
  - intros H. apply Z.leb_le in H. rewrite H. destruct (_ <? _); reflexivity.
  - intros H. destruct (Autopilot.top_rule Autopilot.eligible rules) as [[i top]|] eqn:Et.
    + destruct (top_rule_some _ _ _ _ Et) as (Hn & Hel & _).
      rewrite (H top (nth_error_In _ _ Hn)) in Hel. discriminate Hel.
    + destruct (_ <? _); [reflexivity|]. destruct (_ <=? _); reflexivity.
Qed.

(** X3: If the projected amount reaches the threshold, exceeds the auto-transferred amount by
    more than 50.00, and some rule is eligible, then convert_leak_to_goal_if_possible converts.
    This holds even without a salary profile row for the period, and in that case no row is
    written back. *)
Theorem autopilot_converts_without_period_row :
  forall (projected : Z) (row : option SalaryAllocationProfile)
         (rules : list Autopilot.RuleRow) (r : Autopilot.RuleRow),
    Autopilot.AUTOPILOT_THRESHOLD <= projected ->
    5000 < projected - or_zero (match row with Some p => total_autotransferred p
                                | None => total_autotransferred default_salary_profile end) ->
    In r rules -> Autopilot.eligible r = true ->
    exists c, Autopilot.convert_leak_to_goal_if_possible projected row rules = Some c /\
              (row = None -> Autopilot.row_after c = None).
Proof.
  intros projected row rules r Hp Ha Hin Hel.
  unfold Autopilot.convert_leak_to_goal_if_possible.
  destruct (projected <? Autopilot.AUTOPILOT_THRESHOLD) eqn:E1; [apply Z.ltb_lt in E1; lia|].
  replace (or_zero (total_autotransferred (match row with Some p => p | None => default_salary_profile end)))
    with (or_zero (match row with Some p => total_autotransferred p
                  | None => total_autotransferred default_salary_profile end))
    by (destruct row; reflexivity).
  destruct (_ <=? 5000) eqn:E2; [apply Z.leb_le in E2; lia|].
  destruct (top_rule_exists _ _ _ Hin Hel) as (i & top & Et). rewrite Et.
  destruct (top_rule_some _ _ _ _ Et) as (_ & Htop & _).
  unfold Autopilot.eligible in Htop. apply andb_true_iff in Htop as [_ Hlt]. apply Z.ltb_lt in Hlt.
  destruct (0 <? Z.min _ _) eqn:E3; [|apply Z.ltb_ge in E3; lia].
  eexists; split; [reflexivity|]. intros ->. reflexivity.
Qed.
















Lemma ledger_total_app : forall a b, ledger_total (a ++ b) = ledger_total a + ledger_total b.
Proof. induction a as [|x a IH]; intros b; simpl; [reflexivity|]. rewrite IH. lia. Qed.

Lemma ledger_total_cons :
  forall x l, ledger_total (x :: l) = Consent.entry_amount x + ledger_total l.
Proof. reflexivity. Qed.

Lemma execute_items_shape :
  forall plan t e l t' e' l',
    Consent.execute_items plan (t, e, l) = (t', e', l') ->
    e' = e ++ filter item_positive plan /\
    l' = l ++ map ledger_entry_of (filter item_positive plan) /\
    t' = t + ledger_total (map ledger_entry_of (filter item_positive plan)).
Proof.
  induction plan as [|item rest IH]; intros t e l t' e' l' H; simpl in H.
  - injection H as <- <- <-. simpl. rewrite !app_nil_r. repeat split; lia.
  - cbn [filter].
    destruct (or_zero (Consent.item_transfer_amount item) <=? 0) eqn:E.
    + assert (E' : item_positive item = false)
        by (unfold item_positive; apply Z.ltb_ge; apply Z.leb_le in E; exact E).
      rewrite E'. exact (IH _ _ _ _ _ _ H).
    + assert (E' : item_positive item = true)
        by (unfold item_positive; apply Z.ltb_lt; apply Z.leb_gt in E; exact E).
      rewrite E'. destruct (IH _ _ _ _ _ _ H) as (He & Hl & Ht).
      rewrite <- !app_assoc in He, Hl. repeat split; [exact He|exact Hl|].
      rewrite Ht. change (map ledger_entry_of (item :: filter item_positive rest))
        with (ledger_entry_of item :: map ledger_entry_of (filter item_positive rest)).
      rewrite ledger_total_cons. cbn [ledger_entry_of Consent.entry_amount]. lia.
Qed.

(** X7: record_consent_and_update_balance returns 'no transfers' for an empty plan. For a
    non-empty plan without a salary profile row it fails with NoResultFound. On execution, the
    executed items are exactly the plan items with a positive amount, and one ledger transaction
    is appended per executed item, with its amount, rule id and type. The reported total is the
    sum of those transactions, each of which is positive. *)
Theorem consent_ledger_matches_executed :
  forall (plan : list Consent.TransferItem) (row : option SalaryAllocationProfile),
    (plan = [] -> Consent.record_consent_and_update_balance plan row = Ok Consent.NoTransfers) /\
    (plan <> [] -> row = None ->
       Consent.record_consent_and_update_balance plan row =
         Err (NoResultFound
                "Cannot execute Autopilot: Salary Allocation Profile not found for the period.")) /\
    (forall sp' ledger total executed,
       Consent.record_consent_and_update_balance plan row =
         Ok (Consent.Executed sp' ledger total executed) ->
       executed = filter item_positive plan /\
       ledger = map ledger_entry_of executed /\
       total = ledger_total ledger /\
       Forall (fun e => 0 < Consent.entry_amount e) ledger).
Proof.
  intros plan row. split; [intros ->; reflexivity|]. split.
  - intros Hne ->. destruct plan; [congruence|reflexivity].
  - intros sp' ledger total executed H.
    unfold Consent.record_consent_and_update_balance in H.
    destruct plan as [|item rest]; [discriminate H|].
    destruct row as [sp|]; [|discriminate H].
    destruct (Consent.execute_items (item :: rest) (0, [], [])) as [[t e] l] eqn:E.
    injection H as _ <- <- <-.
    destruct (execute_items_shape _ _ _ _ _ _ _ E) as (He & Hl & Ht).
    cbn [app] in He, Hl. subst e l t. repeat split; try lia.
    apply Forall_forall. intros x Hx. apply in_map_iff in Hx as (i & <- & Hi).
    apply filter_In in Hi as [_ Hp]. unfold item_positive in Hp. apply Z.ltb_lt in Hp.
    exact Hp.
Qed.









Lemma insert_sorted_in :
  forall {A : Type} leb (x y : A) l, In y (insert_sorted leb x l) -> y = x \/ In y l.
Proof.
  intros A leb x y l; induction l as [|z l IH]; simpl; intros H.
  - destruct H as [<-|[]]. left; reflexivity.
  - destruct (leb x z).
    + destruct H as [<-|H]; [left; reflexivity|right; exact H].
    + destruct H as [<-|H]; [right; left; reflexivity|].
      destruct (IH H) as [->|H']; [left; reflexivity|right; right; exact H'].
Qed.

Lemma sort_in :
  forall {A : Type} leb (y : A) l, In y (sort leb l) -> In y l.
Proof.
  intros A leb y l; induction l as [|x l IH]; simpl; intros H; [exact H|].
  destruct (insert_sorted_in leb x y _ H) as [->|H']; [left; reflexivity|right; exact (IH H')].
Qed.

Lemma insert_sorted_length :
  forall {A : Type} leb (x : A) l, length (insert_sorted leb x l) = S (length l).
Proof.
  intros A leb x l; induction l as [|z l IH]; simpl; [reflexivity|].
  destruct (leb x z); simpl; [reflexivity|]. rewrite IH. reflexivity.
Qed.

Lemma sort_length :
  forall {A : Type} leb (l : list A), length (sort leb l) = length l.
Proof.
  intros A leb l; induction l as [|x l IH]; simpl; [reflexivity|].
  rewrite insert_sorted_length, IH. reflexivity.
Qed.

Lemma round_half_even_between :
  forall q lo hi, (inject_Z lo <= q)%Q -> (q <= inject_Z hi)%Q ->
    lo <= round_half_even q <= hi.
Proof.
  intros q lo hi Hlo Hhi. unfold round_half_even.
  set (f := Qfloor q).
  assert (Hf1 : (inject_Z f <= q)%Q) by apply Qfloor_le.
  assert (Hf2 : (q < inject_Z (f + 1))%Q) by apply Qlt_floor.
  assert (Hlof : lo <= f).
  { rewrite <- (Qfloor_Z lo). apply Qfloor_resp_le. exact Hlo. }
  assert (Hfhi : f <= hi).
  { rewrite Zle_Qle. eapply Qle_trans; eassumption. }
  destruct (Qcompare_spec (q - inject_Z f) (1 # 2)) as [H|H|H].
  - assert (Hlt : f < hi).
    { rewrite Zlt_Qlt. apply Qlt_le_trans with q; [|exact Hhi].
      setoid_replace q with (inject_Z f + (q - inject_Z f))%Q by ring.
      rewrite H. lra. }
    destruct (Z.even f); lia.
  - lia.
  - assert (Hlt : f < hi).
    { rewrite Zlt_Qlt. apply Qlt_le_trans with q; [|exact Hhi]. lra. }
    lia.
Qed.

Lemma half_cents_between :
  forall a b, Z.min a b <= half_cents (a + b) <= Z.max a b.
Proof.
  intros a b. unfold half_cents. apply round_half_even_between.
  - unfold Qle; simpl. lia.
  - unfold Qle; simpl. lia.
Qed.

Lemma median_between :
  forall md, md <> [] ->
    exists lo hi, In lo (map snd md) /\ In hi (map snd md) /\
                  lo <= Leakage.median_of_months md <= hi.
Proof.
  intros md Hne. unfold Leakage.median_of_months.
  set (s := sort Z.leb (map snd md)).
  assert (Hlen : length s = length md) by (subst s; rewrite sort_length, length_map; reflexivity).
  assert (Hpos : (0 < length md)%nat) by (destruct md; [congruence|simpl; lia]).
  assert (Hin : forall i, (i < length s)%nat -> In (nth i s 0) (map snd md)).
  { intros i Hi. apply (sort_in Z.leb). apply nth_In. exact Hi. }
  destruct (Nat.odd (length s)) eqn:Ho.
  - exists (nth (length s / 2) s 0), (nth (length s / 2) s 0).
    assert (Hi : (length s / 2 < length s)%nat) by (apply Nat.div_lt; lia).
    split; [apply Hin; exact Hi|]. split; [apply Hin; exact Hi|]. lia.
  - set (a := nth (length s / 2 - 1) s 0). set (b := nth (length s / 2) s 0).
    assert (Hi : (length s / 2 < length s)%nat) by (apply Nat.div_lt; lia).
    assert (Hi' : (length s / 2 - 1 < length s)%nat) by lia.
    pose proof (half_cents_between a b) as Hb.
    exists (Z.min a b), (Z.max a b).
    split; [destruct (Z.min_spec a b) as [[_ ->]|[_ ->]]; apply Hin; assumption|].
    split; [destruct (Z.max_spec a b) as [[_ ->]|[_ ->]]; apply Hin; assumption|].
    exact Hb.
Qed.

Lemma medians_loop_origin :
  forall groups acc c m,
    In (c, m) (Leakage.medians_loop groups acc) ->
    In (c, m) acc \/
    exists md, In (c, md) groups /\ md <> [] /\ m = Leakage.median_of_months md.
Proof.
  induction groups as [|[k md] rest IH]; intros acc c m H; simpl in H; [left; exact H|].
  destruct md as [|x md'].
  - destruct (IH _ _ _ H) as [H'|(md & Hin & Hne & Hm)]; [left; exact H'|].
    right. exists md. split; [right; exact Hin|auto].
  - destruct (IH _ _ _ H) as [H'|(md & Hin & Hne & Hm)].
    + destruct (dict_set_in _ _ _ _ _ H') as [[-> ->]|H''].
      * right. exists (x :: md'). split; [left; reflexivity|]. split; [congruence|reflexivity].
      * left; exact H''.
    + right. exists md. split; [right; exact Hin|auto].
Qed.

(** X10: Each historical spend that _calculate_user_historical_spend returns for a category lies
    between the smallest and largest of that category's monthly totals. *)
Theorem historical_median_within_monthly_totals :
  forall (txs : list Leakage.HistTx) (c : string) (m : Z),
    In (c, m) (Leakage.calculate_user_historical_spend txs) ->
    exists md, In (c, md) (Leakage.monthly_category_spends txs) /\
      exists lo hi, In lo (map snd md) /\ In hi (map snd md) /\ lo <= m <= hi.
Proof.
  intros txs c m H. unfold Leakage.calculate_user_historical_spend in H.
  destruct (medians_loop_origin _ _ _ _ H) as [[]|(md & Hin & Hne & ->)].
  exists md. split; [exact Hin|]. exact (median_between md Hne).
Qed.
















Lemma firstn_forall :
  forall {A : Type} (P : A -> Prop) n l, Forall P l -> Forall P (firstn n l).
Proof.
  intros A P n l Hl. revert n. induction Hl as [|x l Hx Hl IH]; intros [|n]; simpl;
    constructor; auto.
Qed.


Lemma ratio_in_unit_interval :
  forall r q,
    Benchmark.efficiency_ratio r = Some q ->
    match Benchmark.row_variable_spend_total r with
    | Some v => 0 <= v <= Benchmark.row_net_monthly_income r - Benchmark.row_fixed_commitment_total r
    | None => True
    end ->
    unit_interval q.
Proof.
  intros r q H Hv. unfold Benchmark.efficiency_ratio in H.
  set (pool := Benchmark.row_net_monthly_income r - Benchmark.row_fixed_commitment_total r) in *.
  destruct (0 <? pool) eqn:Ep; [|discriminate H]. apply Z.ltb_lt in Ep.
  injection H as <-.
  assert (HpQ : (0 < inject_Z pool)%Q) by (change 0%Q with (inject_Z 0); rewrite <- Zlt_Qlt; exact Ep).
  unfold unit_interval. destruct (Benchmark.row_variable_spend_total r) as [v|].
  - destruct Hv as [Hv0 Hv1]. split.
    + apply Qle_shift_div_l; [exact HpQ|]. rewrite Qmult_0_l.
      change 0%Q with (inject_Z 0). rewrite <- Zle_Qle. exact Hv0.
    + apply Qle_shift_div_r; [exact HpQ|]. rewrite Qmult_1_l. rewrite <- Zle_Qle. exact Hv1.
  - split.
    + apply Qle_shift_div_l; [exact HpQ|]. rewrite Qmult_0_l.
      apply Qmult_le_0_compat; [apply Qlt_le_weak; exact HpQ|unfold Qle; simpl; lia].
    + apply Qle_shift_div_r; [exact HpQ|]. rewrite Qmult_1_l.
      rewrite <- (Qmult_1_r (inject_Z pool)) at 2.
      apply Qmult_le_l; [exact HpQ|unfold Qle; simpl; lia].
Qed.

Lemma ratios_in_unit_interval :
  forall cohort,
    (forall r, In r cohort ->
       match Benchmark.row_variable_spend_total r with
       | Some v => 0 <= v <= Benchmark.row_net_monthly_income r - Benchmark.row_fixed_commitment_total r
       | None => True
       end) ->
    Forall unit_interval (Benchmark.efficiency_ratios cohort).
Proof.
  induction cohort as [|r rest IH]; intros H; simpl; [constructor|].
  destruct (Benchmark.efficiency_ratio r) as [q|] eqn:E.
  - constructor.
    + exact (ratio_in_unit_interval r q E (H r (or_introl eq_refl))).
    + apply IH. intros r' Hr'. exact (H r' (or_intror Hr')).
  - apply IH. intros r' Hr'. exact (H r' (or_intror Hr')).
Qed.

Lemma Qsum_unit_interval :
  forall l, Forall unit_interval l ->
    (0 <= Benchmark.Qsum l /\ Benchmark.Qsum l <= inject_Z (Z.of_nat (length l)))%Q.
Proof.
  intros l Hl. induction Hl as [|x l [Hx0 Hx1] Hl [IH0 IH1]]; [split; apply Qle_refl|].
  unfold Benchmark.Qsum. cbn [fold_right length]. fold (Benchmark.Qsum l).
  rewrite Nat2Z.inj_succ, <- Z.add_1_r, inject_Z_plus. change (inject_Z 1) with 1%Q.
  split; lra.
Qed.

Lemma average_unit_interval :
  forall l, l <> [] -> Forall unit_interval l ->
    unit_interval (Benchmark.Qsum l / inject_Z (Z.of_nat (length l))).
Proof.
  intros l Hne Hl. destruct (Qsum_unit_interval l Hl) as [H0 H1].
  assert (Hlen : (0 < inject_Z (Z.of_nat (length l)))%Q).
  { change 0%Q with (inject_Z 0). rewrite <- Zlt_Qlt. destruct l; [congruence|simpl; lia]. }
  split.
  - apply Qle_shift_div_l; [exact Hlen|]. rewrite Qmult_0_l. exact H0.
  - apply Qle_shift_div_r; [exact Hlen|]. rewrite Qmult_1_l. exact H1.
Qed.

Lemma quantize_unit_interval :
  forall q, unit_interval q -> unit_interval (Benchmark.quantize_factor q).
Proof.
  intros q [H0 H1]. unfold Benchmark.quantize_factor, round_half_up.
  assert (Hq0 : (0 <= q * 100)%Q) by (apply Qmult_le_0_compat; [exact H0|unfold Qle; simpl; lia]).
  rewrite (proj2 (Qle_bool_iff 0 (q * 100)) Hq0).
  assert (Hlo : 0 <= Qfloor (q * 100 + (1 # 2))).
  { apply Z.le_trans with (Qfloor 0); [apply Z.leb_le; reflexivity|apply Qfloor_resp_le; lra]. }
  assert (Hhi : Qfloor (q * 100 + (1 # 2)) <= 100).
  { apply Z.le_trans with (Qfloor (100 + (1 # 2))); [apply Qfloor_resp_le; lra|apply Z.leb_le; reflexivity]. }
  set (t := Qfloor (q * 100 + (1 # 2))) in *.
  assert (H100 : (0 < 100)%Q) by (unfold Qlt; simpl; lia).
  split.
  - apply Qle_shift_div_l; [exact H100|]. rewrite Qmult_0_l.
    change 0%Q with (inject_Z 0). rewrite <- Zle_Qle. exact Hlo.
  - apply Qle_shift_div_r; [exact H100|]. rewrite Qmult_1_l.
    change 100%Q with (inject_Z 100). rewrite <- Zle_Qle. exact Hhi.
Qed.

(** X12: If every cohort member's variable spend (when present) lies between 0 and its income
    minus its fixed commitments, the benchmark factor lies in [0, 1]. *)
Theorem benchmark_factor_in_unit_interval :
  forall (rows : list Benchmark.CohortRow) (self_user_id : Z) (current_efs : Q)
         (current_fixed_total : Z) (city_tier : string) (net_income : Z),
    (forall r, In r (Benchmark.cohort_query rows self_user_id current_efs current_fixed_total
                       city_tier) ->
       match Benchmark.row_variable_spend_total r with
       | Some v => 0 <= v <= Benchmark.row_net_monthly_income r - Benchmark.row_fixed_commitment_total r
       | None => True
       end) ->
    let f := Benchmark.calculate_benchmark_factor rows self_user_id current_efs
               current_fixed_total city_tier net_income in
    (0 <= f /\ f <= 1)%Q.
Proof.
  intros rows uid efs fixed city net H f. subst f.
  unfold Benchmark.calculate_benchmark_factor, Benchmark.benchmark_of_cohort.
  set (cohort := Benchmark.cohort_query _ _ _ _ _) in *.
  assert (Hfb : unit_interval Benchmark.DEFAULT_FALLBACK_FACTOR)
    by (split; unfold Qle; simpl; lia).
  destruct (_ <? _)%nat; [exact Hfb|].
  pose proof (ratios_in_unit_interval cohort H) as Hr.
  destruct (Benchmark.efficiency_ratios cohort) as [|q0 qs]; [exact Hfb|].
  apply quantize_unit_interval, average_unit_interval.
  - set (n := Nat.max 1 _). assert (Hn : (1 <= n)%nat) by apply Nat.le_max_l.
    destruct (sort Qle_bool (q0 :: qs)) as [|y ys] eqn:Es.
    + pose proof (sort_length Qle_bool (q0 :: qs)) as Hl. rewrite Es in Hl. discriminate Hl.
    + destruct n as [|n']; [lia|]. discriminate.
  - apply firstn_forall, sort_forall. exact Hr.
Qed.











(* ------------------------------------------------------------------------- *)
(** ** Witnesses of the properties *)


Lemma autopilot_converts_without_period_row_witness :
  Autopilot.AUTOPILOT_THRESHOLD <= 60000 /\
  5000 < 60000 - or_zero (match @None SalaryAllocationProfile with
                          | Some p => total_autotransferred p
                          | None => total_autotransferred default_salary_profile end) /\
  In ExtraSamples.emergency_row ExtraSamples.autopilot_rules /\
  Autopilot.eligible ExtraSamples.emergency_row = true /\
  exists c, Autopilot.convert_leak_to_goal_if_possible 60000 None ExtraSamples.autopilot_rules = Some c /\
            (@None SalaryAllocationProfile = None -> Autopilot.row_after c = None).
Proof.
  assert (H1 : Autopilot.AUTOPILOT_THRESHOLD <= 60000) by (unfold Autopilot.AUTOPILOT_THRESHOLD; lia).
  assert (H2 : 5000 < 60000 - or_zero (match @None SalaryAllocationProfile with
                          | Some p => total_autotransferred p
                          | None => total_autotransferred default_salary_profile end))
    by (simpl; lia).
  assert (H3 : In ExtraSamples.emergency_row ExtraSamples.autopilot_rules) by (left; reflexivity).
  assert (H4 : Autopilot.eligible ExtraSamples.emergency_row = true) by reflexivity.
  exact (conj H1 (conj H2 (conj H3 (conj H4
           (autopilot_converts_without_period_row 60000 None ExtraSamples.autopilot_rules
              ExtraSamples.emergency_row H1 H2 H3 H4))))).
Defined.




Lemma historical_median_within_monthly_totals_witness :
  In ("Variable_Essential_Food", 900000) (Leakage.calculate_user_historical_spend Samples.history) /\
  exists md, In ("Variable_Essential_Food", md) (Leakage.monthly_category_spends Samples.history) /\
    exists lo hi, In lo (map snd md) /\ In hi (map snd md) /\ lo <= 900000 <= hi.
Proof.
  assert (H : In ("Variable_Essential_Food", 900000)
                (Leakage.calculate_user_historical_spend Samples.history))
    by (vm_compute; repeat (first [left; reflexivity | right])).
  exact (conj H (historical_median_within_monthly_totals _ _ _ H)).
Defined.


Lemma benchmark_factor_in_unit_interval_witness :
  (forall r, In r (Benchmark.cohort_query ExtraSamples.full_cohort 1 (18 # 10) 2000000 "Tier 1") ->
     match Benchmark.row_variable_spend_total r with
     | Some v => 0 <= v <= Benchmark.row_net_monthly_income r - Benchmark.row_fixed_commitment_total r
     | None => True
     end) /\
  let f := Benchmark.calculate_benchmark_factor ExtraSamples.full_cohort 1 (18 # 10) 2000000
             "Tier 1" 6000000 in
  (0 <= f /\ f <= 1)%Q.
Proof.
  assert (H : forall r, In r (Benchmark.cohort_query ExtraSamples.full_cohort 1 (18 # 10) 2000000
                               "Tier 1") ->
     match Benchmark.row_variable_spend_total r with
     | Some v => 0 <= v <= Benchmark.row_net_monthly_income r - Benchmark.row_fixed_commitment_total r
     | None => True
     end).
  { intros r Hr. vm_compute in Hr.
    repeat (destruct Hr as [<-|Hr]; [simpl; try lia; exact I|]). destruct Hr. }
  exact (conj H (benchmark_factor_in_unit_interval _ _ _ _ _ 6000000 H)).
Defined.


